(** * A shallow embedding of the review/rating core of api_yamdb

    The Django models of [reviews/models.py] are embedded as records kept in
    lists (the database tables); the ORM operations that the claims are about
    ([Title.compute_rating], [Review.save], [Review.delete], the cascading
    deletes of Django's collector), the validators of [reviews/validators.py],
    the permission classes of [api/permissions.py], the serializers of
    [api/serializers.py] and the view sets of [api/views.py] are functions on
    that database returning a [Result].  *)

From Stdlib Require Import List ZArith QArith Qround String Bool Lia.
Import ListNotations.
Open Scope string_scope.
Open Scope Z_scope.

(** ** Results: a small error monad for the exceptions the code raises *)

Inductive Error :=
| ValidationError (msg : string)   (* django/DRF ValidationError, HTTP 400 *)
| IntegrityError                   (* database constraint violation *)
| NotFound                         (* Http404 of get_object_or_404 / get_object *)
| NotAuthenticated                 (* DRF permission_denied for anonymous users *)
| PermissionDenied                 (* DRF permission_denied, HTTP 403 *)
| AttributeError                   (* Python AttributeError, HTTP 500 *)
| TypeError.                       (* Python TypeError, HTTP 500 *)

Inductive Result (A : Type) :=
| Ok (a : A)
| Err (e : Error).
Arguments Ok {A} a.
Arguments Err {A} e.

Definition bind {A B} (r : Result A) (k : A -> Result B) : Result B :=
  match r with Ok a => k a | Err e => Err e end.

Notation "'let*' x ':=' r 'in' k" := (bind r (fun x => k))
  (at level 200, x name, r at level 100, k at level 200).

Definition guard (b : bool) (e : Error) : Result unit :=
  if b then Ok tt else Err e.

(** ** Data model ([reviews/models.py]) *)

(** [RoleChoices] of [reviews/constants.py]. *)
Inductive Role := USER | ADMIN | MODERATOR.

Definition Role_eqb (a b : Role) : bool :=
  match a, b with
  | USER, USER | ADMIN, ADMIN | MODERATOR, MODERATOR => true
  | _, _ => false
  end.

Record User := mkUser {
  user_id : nat;
  username : string;
  role : Role;
  is_superuser : bool;
  is_staff : bool
}.

(** [User.is_admin] and [User.is_moderator]. *)
Definition is_admin (u : User) : bool :=
  Role_eqb (role u) ADMIN || is_superuser u || is_staff u.

Definition is_moderator (u : User) : bool :=
  Role_eqb (role u) MODERATOR || is_admin u.

(** [Title]: [year] is a [PositiveIntegerField] without validators, [rating] an
    [IntegerField(null=True)], [category] a nullable foreign key (by slug
    here), [genres] a many-to-many relation (a list of slugs). *)
Record Title := mkTitle {
  title_id : nat;
  title_name : string;
  title_year : Z;
  title_rating : option Z;
  title_description : option string;
  title_category : option string;
  title_genres : list string
}.

(** [Review]: [title] and [author] are foreign keys with [on_delete=CASCADE];
    [score] is a [PositiveSmallIntegerField] without validators;
    [Meta.unique_together = ('title', 'author')]. *)
Record Review := mkReview {
  review_id : nat;
  review_title : nat;
  review_author : nat;
  review_text : string;
  review_score : Z
}.

(** [Comment]: [review] and [author] are foreign keys with [on_delete=CASCADE]. *)
Record Comment := mkComment {
  comment_id : nat;
  comment_review : nat;
  comment_author : nat;
  comment_text : string
}.

(** The database: one list per table. *)
Record DB := mkDB {
  users : list User;
  categories : list string;
  genres : list string;
  titles : list Title;
  reviews : list Review;
  comments : list Comment
}.

Definition set_users (db : DB) us :=
  mkDB us (categories db) (genres db) (titles db) (reviews db) (comments db).
Definition set_titles (db : DB) ts :=
  mkDB (users db) (categories db) (genres db) ts (reviews db) (comments db).
Definition set_reviews (db : DB) rs :=
  mkDB (users db) (categories db) (genres db) (titles db) rs (comments db).
Definition set_comments (db : DB) cs :=
  mkDB (users db) (categories db) (genres db) (titles db) (reviews db) cs.

Definition set_title_rating (t : Title) (r : option Z) : Title :=
  mkTitle (title_id t) (title_name t) (title_year t) r
    (title_description t) (title_category t) (title_genres t).

Definition set_review_text (r : Review) (s : string) : Review :=
  mkReview (review_id r) (review_title r) (review_author r) s (review_score r).

Definition set_review_score (r : Review) (s : Z) : Review :=
  mkReview (review_id r) (review_title r) (review_author r) (review_text r) s.

Definition find_title (db : DB) (tid : nat) : option Title :=
  find (fun t => Nat.eqb (title_id t) tid) (titles db).

Definition find_review (db : DB) (rid : nat) : option Review :=
  find (fun r => Nat.eqb (review_id r) rid) (reviews db).

(** The stored rating of a title, [None] when the title does not exist. *)
Definition rating_of (db : DB) (tid : nat) : option (option Z) :=
  option_map title_rating (find_title db tid).

(** [self.reviews.all()]: the reviews whose foreign key is the title. *)
Definition reviews_of (db : DB) (tid : nat) : list Review :=
  filter (fun r => Nat.eqb (review_title r) tid) (reviews db).

Definition scores_of (db : DB) (tid : nat) : list Z :=
  map review_score (reviews_of db tid).

(** ** Rating aggregation *)

(** SQL [AVG(score)]: the arithmetic mean, [NULL] over no rows. *)
Definition Avg (l : list Z) : option Q :=
  match l with
  | [] => None
  | _ => Some (Qmake (fold_right Z.add 0 l) (Pos.of_nat (List.length l)))
  end.

(** Python [int(x)] on a float, which [IntegerField.get_prep_value] applies
    before the value is written: truncation toward zero. *)
Definition py_int (q : Q) : Z :=
  if Qle_bool 0 q then Qfloor q else - Qfloor (- q).

(** [IntegerField(null=True)]: the value that reaches the column. *)
Definition IntegerField_prep (v : option Q) : option Z := option_map py_int v.

(** [Title.compute_rating]: [self.rating = reviews.aggregate(Avg('score'))
    ['score__avg']; self.save()]. *)
Definition compute_rating (db : DB) (tid : nat) : DB :=
  let avg := Avg (scores_of db tid) in
  set_titles db
    (map (fun t => if Nat.eqb (title_id t) tid
                   then set_title_rating t (IntegerField_prep avg) else t)
         (titles db)).

(** Django [Model.save]: an UPDATE of the row with the same primary key when
    there is one, an INSERT otherwise. *)
Fixpoint upsert_review (r : Review) (rs : list Review) : list Review :=
  match rs with
  | [] => [r]
  | r' :: rs' => if Nat.eqb (review_id r') (review_id r) then r :: rs'
                 else r' :: upsert_review r rs'
  end.

(** The database constraints checked on the write of a review row: the
    foreign keys to the title and to the author, the [CHECK (score >= 0)] of
    a [PositiveSmallIntegerField], and [unique_together = ('title',
    'author')].  (The upper bound 32767 of [smallint] depends on the
    database backend: PostgreSQL enforces it, SQLite does not; it is not
    modelled.) *)
Definition review_row_ok (db : DB) (r : Review) : bool :=
  match find_title db (review_title r) with
  | None => false
  | Some _ =>
      existsb (fun u => Nat.eqb (user_id u) (review_author r)) (users db)
      && (0 <=? review_score r)
      && negb (existsb (fun r' => negb (Nat.eqb (review_id r') (review_id r))
                               && Nat.eqb (review_title r') (review_title r)
                               && Nat.eqb (review_author r') (review_author r))
                    (reviews db))
  end.

(** [Review.save]: [super().save()] then [self.title.compute_rating()]. *)
Definition Review_save (db : DB) (r : Review) : Result DB :=
  let* _ := guard (review_row_ok db r) IntegrityError in
  let db1 := set_reviews db (upsert_review r (reviews db)) in
  Ok (compute_rating db1 (review_title r)).

(** [Review.delete]: [super().delete()], whose collector also removes the
    comments of the review ([Comment.review] is [CASCADE]), then
    [title.compute_rating()]. *)
Definition Review_delete (db : DB) (r : Review) : DB :=
  let db1 := set_comments db
               (filter (fun c => negb (Nat.eqb (comment_review c) (review_id r)))
                       (comments db)) in
  let db2 := set_reviews db1
               (filter (fun r' => negb (Nat.eqb (review_id r') (review_id r)))
                       (reviews db1)) in
  compute_rating db2 (review_title r).

(** ** Django's deletion collector for [Title] and [User]

    [Model.delete] on a title or a user collects the rows that reference it
    through [on_delete=CASCADE] foreign keys, transitively, and deletes them
    in bulk: the overridden [Review.delete] is not called for them. *)

(** [Title.delete()]: the title, its reviews ([Review.title] is [CASCADE])
    and their comments ([Comment.review] is [CASCADE]). *)
Definition delete_title (db : DB) (tid : nat) : DB :=
  let doomed := map review_id (reviews_of db tid) in
  mkDB (users db) (categories db) (genres db)
    (filter (fun t => negb (Nat.eqb (title_id t) tid)) (titles db))
    (filter (fun r => negb (Nat.eqb (review_title r) tid)) (reviews db))
    (filter (fun c => negb (existsb (Nat.eqb (comment_review c)) doomed))
            (comments db)).

(** [User.delete()]: the user, the reviews they wrote ([Review.author] is
    [CASCADE]), the comments on those reviews, and the comments they wrote
    ([Comment.author] is [CASCADE]).  Titles are not touched. *)
Definition delete_user (db : DB) (uid : nat) : DB :=
  let doomed := map review_id
                  (filter (fun r => Nat.eqb (review_author r) uid) (reviews db)) in
  mkDB (filter (fun u => negb (Nat.eqb (user_id u) uid)) (users db))
    (categories db) (genres db) (titles db)
    (filter (fun r => negb (Nat.eqb (review_author r) uid)) (reviews db))
    (filter (fun c => negb (Nat.eqb (comment_author c) uid)
                      && negb (existsb (Nat.eqb (comment_review c)) doomed))
            (comments db)).

(** ** Permissions ([api/permissions.py]) *)

Inductive Method := GET | HEAD | OPTIONS | POST | PUT | PATCH | DELETE.

Definition is_safe (m : Method) : bool :=
  match m with GET | HEAD | OPTIONS => true | _ => false end.

(** [request.user]: an authenticated [User], or Django's [AnonymousUser]. *)
Definition Actor := option User.

Definition is_authenticated (a : Actor) : bool :=
  match a with Some _ => true | None => false end.

(** [obj.author == request.user] ([AnonymousUser] equals no user). *)
Definition is_author (a : Actor) (author : nat) : bool :=
  match a with Some u => Nat.eqb (user_id u) author | None => false end.

(** [request.user.is_authenticated and (is_admin or is_moderator)]. *)
Definition is_staff_actor (a : Actor) : bool :=
  match a with Some u => is_admin u || is_moderator u | None => false end.

Definition is_admin_actor (a : Actor) : bool :=
  match a with Some u => is_admin u | None => false end.

(** A DRF permission class: the object of a review or comment is seen
    through its author. *)
Record Permission := mkPermission {
  has_permission : Method -> Actor -> bool;
  has_object_permission : Method -> Actor -> nat -> bool
}.

(** [BasePermission] returns [True] from both methods unless overridden. *)
Definition IsOwnerOrReadOnly : Permission :=
  mkPermission (fun m a => is_safe m || is_authenticated a)
               (fun m a author => is_safe m || is_author a author).

Definition IsAuthorOrModerPermission : Permission :=
  mkPermission (fun _ _ => true)
               (fun m a author => is_safe m || is_author a author
                                  || is_staff_actor a).

Definition IsAdminOrReadOnly : Permission :=
  mkPermission (fun m a => is_safe m || is_admin_actor a)
               (fun m a _ => is_safe m || is_admin_actor a).

Definition IsAuthenticatedOrReadOnly : Permission :=
  mkPermission (fun m a => is_safe m || is_authenticated a) (fun _ _ _ => true).

(** [rest_framework.permissions.IsAuthenticated] and [AllowAny]. *)
Definition IsAuthenticated : Permission :=
  mkPermission (fun _ a => is_authenticated a) (fun _ _ _ => true).

Definition AllowAny : Permission :=
  mkPermission (fun _ _ => true) (fun _ _ _ => true).

(** An entry of the list [get_permissions] returns: an instance, or the class
    itself.  DRF calls [permission.has_permission(request, self)] on every
    entry; on a class that is a call of the plain function with [self]
    missing, which raises [TypeError]. *)
Inductive PermEntry :=
| PermInstance (p : Permission)
| PermClass (p : Permission).

(** [APIView.permission_denied]: [NotAuthenticated] for an anonymous request,
    [PermissionDenied] otherwise. *)
Definition permission_denied (a : Actor) : Error :=
  if is_authenticated a then PermissionDenied else NotAuthenticated.

(** [APIView.check_permissions]: every entry must allow (the entries are
    and-ed), in order. *)
Fixpoint check_permissions (ps : list PermEntry) (m : Method) (a : Actor)
  : Result unit :=
  match ps with
  | [] => Ok tt
  | PermClass _ :: _ => Err TypeError
  | PermInstance p :: ps' =>
      if has_permission p m a then check_permissions ps' m a
      else Err (permission_denied a)
  end.

(** [APIView.check_object_permissions]. *)
Fixpoint check_object_permissions (ps : list PermEntry) (m : Method)
  (a : Actor) (author : nat) : Result unit :=
  match ps with
  | [] => Ok tt
  | PermClass _ :: _ => Err TypeError
  | PermInstance p :: ps' =>
      if has_object_permission p m a author
      then check_object_permissions ps' m a author
      else Err (permission_denied a)
  end.

(** ** Reviews: [ReviewSerializer] and [ReviewViewSet] *)

Inductive Action := act_list | act_retrieve | act_create | act_partial_update
                  | act_destroy.

(** [ReviewViewSet.get_permissions]; note the first entry of the
    [partial_update]/[destroy] list is the class, not an instance. *)
Definition ReviewViewSet_get_permissions (act : Action) : list PermEntry :=
  match act with
  | act_partial_update | act_destroy =>
      [PermClass IsAuthorOrModerPermission; PermInstance IsOwnerOrReadOnly]
  | act_create => [PermInstance IsAuthenticated]
  | _ => [PermInstance AllowAny]
  end.

(** [CommentViewSet.get_permissions], for comparison. *)
Definition CommentViewSet_get_permissions (act : Action) : list PermEntry :=
  match act with
  | act_partial_update | act_destroy =>
      [PermInstance IsOwnerOrReadOnly; PermInstance IsAuthorOrModerPermission]
  | act_create => [PermInstance IsAuthenticated]
  | _ => [PermInstance AllowAny]
  end.

(** The request body of a review: the writable fields of
    [ReviewSerializer] ([text], [score]); [author], [title], [pub_date] and
    [id] are read-only and never read from the request. *)
Record ReviewData := mkReviewData {
  rd_text : option string;
  rd_score : option Z
}.

(** Python's [str.strip()] on ASCII text: tab, newline, vertical tab, form
    feed, carriage return, the separators 0x1c-0x1f and space. *)
Definition py_space (c : Ascii.ascii) : bool :=
  let n := Ascii.nat_of_ascii c in
  (((9 <=? n) && (n <=? 13)) || ((28 <=? n) && (n <=? 32)))%nat.

Fixpoint drop_space (l : list Ascii.ascii) : list Ascii.ascii :=
  match l with
  | c :: l' => if py_space c then drop_space l' else l
  | [] => []
  end.

Definition py_strip (s : string) : string :=
  string_of_list_ascii
    (rev (drop_space (rev (drop_space (list_ascii_of_string s))))).

(** The field validation of [ReviewSerializer]: [text] is a [CharField] with
    [allow_blank=False] (the model's [TextField] is not [blank]) and
    [trim_whitespace=True]: the value is stripped, and a value that is blank
    after stripping is refused; [score] an
    [IntegerField] whose bounds DRF takes from the model field: [0 .. 32767]
    for a [PositiveSmallIntegerField]; no [validate_score] is attached.  With
    [partial=True] (PATCH) a missing field is skipped. *)
Definition review_score_field_ok (s : Z) : bool := (0 <=? s) && (s <=? 32767).

Definition ReviewSerializer_fields (partial : bool) (d : ReviewData)
  : Result ReviewData :=
  let* text := match rd_text d with
               | Some t =>
                   let* _ := guard (negb (String.eqb (py_strip t) "")) (ValidationError "text") in
                   Ok (Some (py_strip t))
               | None => let* _ := guard partial (ValidationError "text") in Ok None
               end in
  let* _ := match rd_score d with
            | Some s => guard (review_score_field_ok s) (ValidationError "score")
            | None => guard partial (ValidationError "score")
            end in
  Ok (mkReviewData text (rd_score d)).

(** [ReviewSerializer.validate]: [title = data.get('title') or
    self.instance.title].  [title] is not a field of the serializer, so
    [data.get('title')] is [None] and [self.instance.title] is read; on a
    create [self.instance] is [None] and this raises [AttributeError].  On an
    update the title is the instance's own, so the existence check is not
    reached. *)
Definition ReviewSerializer_validate (db : DB) (instance : option Review)
  (a : Actor) (d : ReviewData) : Result ReviewData :=
  match instance with
  | None => Err AttributeError
  | Some inst =>
      let title := review_title inst in
      if negb (Nat.eqb (review_title inst) title)
         && existsb (fun r => Nat.eqb (review_title r) title
                              && is_author a (review_author r)) (reviews db)
      then Err (ValidationError "already reviewed")
      else Ok d
  end.

Definition ReviewSerializer_is_valid (db : DB) (instance : option Review)
  (partial : bool) (a : Actor) (d : ReviewData) : Result ReviewData :=
  let* d' := ReviewSerializer_fields partial d in
  ReviewSerializer_validate db instance a d'.

Definition next_review_id (db : DB) : nat :=
  S (fold_right Nat.max 0%nat (map review_id (reviews db))).

(** [ReviewViewSet.perform_create]: [get_object_or_404(Title)], the
    application-level existence check, then [serializer.save(author, title)],
    i.e. [Review.save] on the new row. *)
Definition ReviewViewSet_perform_create (db : DB) (a : Actor) (tid : nat)
  (d : ReviewData) : Result DB :=
  match find_title db tid, a with
  | None, _ => Err NotFound
  | Some _, None => Err TypeError  (* author=AnonymousUser; unreachable *)
  | Some _, Some u =>
      if existsb (fun r => Nat.eqb (review_title r) tid
                           && Nat.eqb (review_author r) (user_id u)) (reviews db)
      then Err (ValidationError "already reviewed")
      else
        let text := match rd_text d with Some t => t | None => ""%string end in
        let score := match rd_score d with Some s => s | None => 0 end in
        Review_save db (mkReview (next_review_id db) tid (user_id u) text score)
  end.

(** POST [titles/<title_id>/reviews/]: [CreateModelMixin.create]. *)
Definition review_create (db : DB) (a : Actor) (tid : nat) (d : ReviewData)
  : Result DB :=
  let* _ := check_permissions (ReviewViewSet_get_permissions act_create) POST a in
  let* d' := ReviewSerializer_is_valid db None false a d in
  ReviewViewSet_perform_create db a tid d'.

(** [GenericAPIView.get_object] on [Review.objects.filter(title_id=...)],
    with the object permission check. *)
Definition ReviewViewSet_get_object (db : DB) (act : Action) (m : Method)
  (a : Actor) (tid rid : nat) : Result Review :=
  match find (fun r => Nat.eqb (review_id r) rid) (reviews_of db tid) with
  | None => Err NotFound
  | Some r =>
      let* _ := check_object_permissions (ReviewViewSet_get_permissions act)
                  m a (review_author r) in
      Ok r
  end.

(** PATCH [titles/<title_id>/reviews/<id>/]: [UpdateModelMixin.update] with
    [partial=True]; [serializer.save()] sets the supplied fields on the
    instance and calls [Review.save]. *)
Definition review_partial_update (db : DB) (a : Actor) (tid rid : nat)
  (d : ReviewData) : Result DB :=
  let* _ := check_permissions (ReviewViewSet_get_permissions act_partial_update)
              PATCH a in
  let* r := ReviewViewSet_get_object db act_partial_update PATCH a tid rid in
  let* d' := ReviewSerializer_is_valid db (Some r) true a d in
  let r1 := match rd_text d' with Some t => set_review_text r t | None => r end in
  let r2 := match rd_score d' with Some s => set_review_score r1 s | None => r1 end in
  Review_save db r2.

(** DELETE [titles/<title_id>/reviews/<id>/]: [instance.delete()], i.e.
    [Review.delete]. *)
Definition review_destroy (db : DB) (a : Actor) (tid rid : nat) : Result DB :=
  let* _ := check_permissions (ReviewViewSet_get_permissions act_destroy)
              DELETE a in
  let* r := ReviewViewSet_get_object db act_destroy DELETE a tid rid in
  Ok (Review_delete db r).

(** ** Validators ([reviews/validators.py])

    Both are defined in the repository; neither is attached to a model field
    or a serializer field. *)

(** [validate_year]: [datetime.now().year] is the parameter [current_year]. *)
Definition validate_year (current_year value : Z) : Result unit :=
  guard (negb (current_year <? value)) (ValidationError "year").

Definition validate_score (value : Z) : Result unit :=
  guard ((1 <=? value) && (value <=? 10)) (ValidationError "score").

(** ** Titles: [TitleWriteSerializer] and [TitleViewSet]

    [TitleViewSet] names a [TitleSerializer]; the serializer module defines the
    write serializer [TitleWriteSerializer], which is embedded here. *)

(** The request body of a title, with every key a client may send;
    [td_rating] is the client-supplied [rating]. *)
Record TitleData := mkTitleData {
  td_name : option string;
  td_year : option Z;
  td_rating : option Q;
  td_description : option string;
  td_category : option string;
  td_genres : option (list string)
}.

(** [serializer.validated_data]: the writable fields only. *)
Record TitleValidated := mkTitleValidated {
  tv_name : option string;
  tv_year : option Z;
  tv_description : option string;
  tv_category : option string;
  tv_genres : option (list string)
}.

Definition required {A} (partial : bool) (field : string) (v : option A)
  (check : A -> bool) : Result (option A) :=
  match v with
  | Some x => if check x then Ok (Some x) else Err (ValidationError field)
  | None => if partial then Ok None else Err (ValidationError field)
  end.

Definition mem_string (s : string) (l : list string) : bool :=
  existsb (String.eqb s) l.

(** The field validation of [TitleWriteSerializer]: [name] a [CharField]
    ([max_length=256], stripped, not blank after stripping), [year] an
    [IntegerField] with the bounds of a [PositiveIntegerField] and no other
    validator, [description] optional and stripped ([allow_blank=True]), [category] a required [SlugRelatedField], [genres] a required,
    non-empty [SlugRelatedField(many=True)].  [rating] is
    [FloatField(read_only=True, default=None)]: a read-only field is not
    among the writable fields, so [td_rating] is never read. *)
Definition TitleWriteSerializer_is_valid (db : DB) (partial : bool)
  (d : TitleData) : Result TitleValidated :=
  let* name := required partial "name" (option_map py_strip (td_name d))
                 (fun s => negb (String.eqb s "") && (String.length s <=? 256)%nat) in
  let* year := required partial "year" (td_year d)
                 (fun y => (0 <=? y) && (y <=? 2147483647)) in
  let* cat := required partial "category" (td_category d)
                (fun s => mem_string s (categories db)) in
  let* gs := required partial "genres" (td_genres d)
               (fun l => negb (List.length l =? 0)%nat
                         && forallb (fun s => mem_string s (genres db)) l) in
  Ok (mkTitleValidated name year (option_map py_strip (td_description d)) cat gs).

Definition next_title_id (db : DB) : nat :=
  S (fold_right Nat.max 0%nat (map title_id (titles db))).

Definition opt_default {A} (o : option A) (d : A) : A :=
  match o with Some x => x | None => d end.

(** [ModelSerializer.create]: [Title.objects.create] on the validated data and
    [genres.set(...)]; the model field [rating] has no default, so the row
    gets [NULL]. *)
Definition TitleWriteSerializer_create (db : DB) (v : TitleValidated) : DB :=
  let t := mkTitle (next_title_id db) (opt_default (tv_name v) ""%string)
             (opt_default (tv_year v) 0) None (tv_description v)
             (tv_category v) (opt_default (tv_genres v) []) in
  set_titles db (titles db ++ [t]).

(** [ModelSerializer.update]: [setattr] of every validated field, then
    [instance.save()]. *)
Definition update_title (t : Title) (v : TitleValidated) : Title :=
  mkTitle (title_id t) (opt_default (tv_name v) (title_name t))
    (opt_default (tv_year v) (title_year t)) (title_rating t)
    (match tv_description v with Some s => Some s | None => title_description t end)
    (match tv_category v with Some s => Some s | None => title_category t end)
    (opt_default (tv_genres v) (title_genres t)).

Definition TitleWriteSerializer_update (db : DB) (tid : nat) (v : TitleValidated)
  : DB :=
  set_titles db (map (fun t => if Nat.eqb (title_id t) tid then update_title t v
                               else t) (titles db)).

(** [TitleViewSet.permission_classes]. *)
Definition TitleViewSet_permissions : list PermEntry :=
  [PermInstance IsAuthenticatedOrReadOnly; PermInstance IsAdminOrReadOnly].

(** The title's object permissions are checked against a title, which has no
    author; [IsAdminOrReadOnly.has_object_permission] does not look at it. *)
Definition TitleViewSet_get_object (db : DB) (m : Method) (a : Actor)
  (tid : nat) : Result Title :=
  match find_title db tid with
  | None => Err NotFound
  | Some t =>
      let* _ := check_object_permissions TitleViewSet_permissions m a 0%nat in
      Ok t
  end.

(** POST [titles/]. *)
Definition title_create (db : DB) (a : Actor) (d : TitleData) : Result DB :=
  let* _ := check_permissions TitleViewSet_permissions POST a in
  let* v := TitleWriteSerializer_is_valid db false d in
  Ok (TitleWriteSerializer_create db v).

(** PATCH [titles/<id>/]. *)
Definition title_partial_update (db : DB) (a : Actor) (tid : nat)
  (d : TitleData) : Result DB :=
  let* _ := check_permissions TitleViewSet_permissions PATCH a in
  let* t := TitleViewSet_get_object db PATCH a tid in
  let* v := TitleWriteSerializer_is_valid db true d in
  Ok (TitleWriteSerializer_update db (title_id t) v).

(** DELETE [titles/<id>/]: [instance.delete()]. *)
Definition title_destroy (db : DB) (a : Actor) (tid : nat) : Result DB :=
  let* _ := check_permissions TitleViewSet_permissions DELETE a in
  let* t := TitleViewSet_get_object db DELETE a tid in
  Ok (delete_title db (title_id t)).

(** ** Concrete states *)

Definition alice : User := mkUser 1 "alice" USER false false.
Definition bob : User := mkUser 2 "bob" USER false false.
Definition mod_carol : User := mkUser 3 "carol" MODERATOR false false.
Definition root_admin : User := mkUser 4 "root" ADMIN false false.

Definition dune : Title := mkTitle 1 "Dune" 1965 None None (Some "books") ["scifi"].

Definition db0 : DB :=
  mkDB [alice; bob; mod_carol; root_admin] ["books"] ["scifi"] [dune] [] [].

Definition ok_or {A} (r : Result A) (d : A) : A :=
  match r with Ok a => a | Err _ => d end.

(** Two reviews of "Dune", by alice (8) and bob (7), saved through
    [Review.save]. *)
Definition db_two : DB :=
  ok_or (let* d := Review_save db0 (mkReview 1 1 1 "great" 8) in
         Review_save d (mkReview 2 1 2 "good" 7)) db0.

(** Scenario D: "Dune" with three reviews and five comments across them. *)
Definition db_scenario_D : DB :=
  mkDB [alice; bob; mod_carol; root_admin] ["books"] ["scifi"]
    [dune; mkTitle 2 "Solaris" 1961 (Some 9) None (Some "books") ["scifi"]]
    [mkReview 1 1 1 "a" 8; mkReview 2 1 2 "b" 6; mkReview 3 1 3 "c" 9;
     mkReview 4 2 1 "d" 9]
    [mkComment 1 1 2 "c1"; mkComment 2 1 3 "c2"; mkComment 3 2 1 "c3";
     mkComment 4 3 1 "c4"; mkComment 5 3 2 "c5"; mkComment 6 4 2 "c6"].

(** Every comment references an existing review. *)
Definition comment_refs_ok (db : DB) : bool :=
  forallb (fun c => existsb (fun r => Nat.eqb (review_id r) (comment_review c))
                            (reviews db))
          (comments db).

(** The stored rating of a title is the value [compute_rating] writes. *)
Definition rating_consistent (db : DB) (tid : nat) : Prop :=
  rating_of db tid = Some (IntegerField_prep (Avg (scores_of db tid))).

(** ** Lemmas on the rating recomputation *)

Lemma find_map {A B} (f : A -> B) (p : B -> bool) (l : list A) :
  find p (map f l) = option_map f (find (fun x => p (f x)) l).
Proof.
  induction l as [|x l IH]; simpl; [reflexivity|].
  destruct (p (f x)); [reflexivity | exact IH].
Qed.

Lemma find_ext {A} (p q : A -> bool) (l : list A) :
  (forall x, p x = q x) -> find p l = find q l.
Proof.
  intros Hpq; induction l as [|x l IH]; simpl; [reflexivity|].
  rewrite Hpq; destruct (q x); [reflexivity | exact IH].
Qed.

Lemma reviews_compute_rating db tid :
  reviews (compute_rating db tid) = reviews db.
Proof. reflexivity. Qed.

Lemma scores_of_compute_rating db tid tid' :
  scores_of (compute_rating db tid) tid' = scores_of db tid'.
Proof. reflexivity. Qed.

Lemma find_title_compute_rating db tid :
  find_title (compute_rating db tid) tid =
  option_map (fun t => set_title_rating t (IntegerField_prep (Avg (scores_of db tid))))
             (find_title db tid).
Proof.
  unfold find_title, compute_rating; simpl.
  rewrite find_map.
  rewrite (find_ext _ (fun t => Nat.eqb (title_id t) tid)).
  - destruct (find (fun t => Nat.eqb (title_id t) tid) (titles db)) as [t|] eqn:E;
      [|reflexivity].
    apply find_some in E as [_ E]; simpl; rewrite E; reflexivity.
  - intros t; destruct (Nat.eqb (title_id t) tid) eqn:E; simpl; rewrite ?E;
      reflexivity.
Qed.

(** [compute_rating] makes the recomputed title consistent. *)
Lemma compute_rating_consistent db tid :
  find_title db tid <> None -> rating_consistent (compute_rating db tid) tid.
Proof.
  intros Hex; unfold rating_consistent, rating_of.
  rewrite find_title_compute_rating, scores_of_compute_rating.
  destruct (find_title db tid); [reflexivity | contradiction].
Qed.

Lemma set_title_rating_twice t x y :
  set_title_rating (set_title_rating t x) y = set_title_rating t y.
Proof. reflexivity. Qed.



(** After [Review.delete] of the last review of a title, its rating is
    [NULL]. *)
Lemma Review_delete_last db r :
  find_title db (review_title r) <> None ->
  (forall r', In r' (reviews db) -> review_title r' = review_title r ->
              review_id r' = review_id r) ->
  rating_of (Review_delete db r) (review_title r) = Some None.
Proof.
  intros Hex Honly; unfold Review_delete, rating_of.
  rewrite find_title_compute_rating.
  replace (scores_of _ (review_title r)) with (@nil Z).
  - simpl; unfold find_title in *; simpl.
    destruct (find _ (titles db)); [reflexivity | contradiction].
  - unfold scores_of, reviews_of; simpl.
    clear Hex; induction (reviews db) as [|x l IH]; simpl; [reflexivity|].
    destruct (Nat.eqb (review_id x) (review_id r)) eqn:Eid; simpl.
    + apply IH; intros r' Hin; apply Honly; right; exact Hin.
    + destruct (Nat.eqb (review_title x) (review_title r)) eqn:Et.
      * apply Nat.eqb_eq in Et.
        rewrite (Honly x (or_introl eq_refl) Et), Nat.eqb_refl in Eid.
        discriminate.
      * apply IH; intros r' Hin; apply Honly; right; exact Hin.
Qed.

(** ** Lemmas on the review table *)

Lemma In_upsert_review r rs x :
  In x (upsert_review r rs) -> x = r \/ In x rs.
Proof.
  induction rs as [|y rs IH]; simpl.
  - intros [<-|[]]; left; reflexivity.
  - destruct (Nat.eqb (review_id y) (review_id r)); simpl.
    + intros [<-|H]; [left; reflexivity | right; right; exact H].
    + intros [<-|H]; [right; left; reflexivity|].
      destruct (IH H) as [->|H']; [left; reflexivity | right; right; exact H'].
Qed.

(** At most one review row per (title, author) pair. *)
Definition pairs_unique (rs : list Review) : Prop :=
  forall r1 r2, In r1 rs -> In r2 rs ->
    review_title r1 = review_title r2 -> review_author r1 = review_author r2 ->
    review_id r1 = review_id r2.

(** The [unique_together] constraint is checked on every review write, so a
    successful [Review.save] keeps one row per pair. *)
Lemma Review_save_pairs_unique db r db' :
  pairs_unique (reviews db) -> Review_save db r = Ok db' ->
  pairs_unique (reviews db').
Proof.
  unfold Review_save, guard, bind.
  destruct (review_row_ok db r) eqn:Hok; [|discriminate].
  intros Hu H; injection H as <-; simpl.
  unfold review_row_ok in Hok.
  destruct (find_title db (review_title r)); [|discriminate].
  apply andb_true_iff in Hok; destruct Hok as [_ Hok].
  apply negb_true_iff in Hok.
  assert (Hnone : forall x, In x (reviews db) -> review_title x = review_title r ->
                  review_author x = review_author r -> review_id x = review_id r).
  { intros x Hx Ht Ha.
    destruct (Nat.eqb (review_id x) (review_id r)) eqn:E;
      [apply Nat.eqb_eq; exact E|].
    assert (Hex : existsb (fun r' => negb (Nat.eqb (review_id r') (review_id r))
                            && Nat.eqb (review_title r') (review_title r)
                            && Nat.eqb (review_author r') (review_author r))
                    (reviews db) = true).
    { apply existsb_exists; exists x; split; [exact Hx|].
      rewrite E, Ht, Ha, !Nat.eqb_refl; reflexivity. }
    rewrite Hok in Hex; discriminate. }
  intros r1 r2 H1 H2 Ht Ha.
  destruct (In_upsert_review _ _ _ H1) as [->|H1'];
  destruct (In_upsert_review _ _ _ H2) as [->|H2'].
  - reflexivity.
  - symmetry; apply Hnone; [exact H2' | symmetry; exact Ht | symmetry; exact Ha].
  - apply Hnone; assumption.
  - apply Hu; assumption.
Qed.

(** A create with a well-formed body by an authenticated user always stops
    in [ReviewSerializer.validate] with [AttributeError]. *)
Lemma review_create_attribute_error db u tid d :
  ReviewSerializer_fields false d = Ok d ->
  review_create db (Some u) tid d = Err AttributeError.
Proof.
  intros H; unfold review_create, ReviewSerializer_is_valid; simpl.
  rewrite H; reflexivity.
Qed.

(** The comment view set lists both permissions as instances; since DRF and-s
    them, a moderator who is not the author is denied there. *)
Lemma comment_moderator_denied :
  check_object_permissions (CommentViewSet_get_permissions act_partial_update)
    PATCH (Some mod_carol) 1 = Err PermissionDenied.
Proof. reflexivity. Qed.


(** ** Claims *)

(** C1 (code_bug): the stored rating should be the mean of the scores of the
    title's reviews.  [compute_rating] computes [Avg('score')], but the
    [rating] column is an [IntegerField], so the mean is truncated on write:
    with the scores 8 and 7 the mean is 15/2 while the stored rating is 7. *)
Theorem C1_stored_rating_truncates_mean :
  (let* d := Review_save db0 (mkReview 1 1 1 "great" 8) in
   Review_save d (mkReview 2 1 2 "good" 7)) = Ok db_two /\
  Avg (scores_of db_two 1) = Some (15 # 2)%Q /\
  rating_of db_two 1 = Some (Some 7) /\
  ~ (inject_Z 7 == 15 # 2)%Q.
Proof.
  split; [reflexivity|].
  split; [reflexivity|].
  split; [reflexivity|].
  unfold Qeq; simpl; discriminate.
Qed.

(** C2 (code_bug): a second review of "Dune" by alice should fail with the
    duplicate-review error.  It fails with [AttributeError] from
    [ReviewSerializer.validate] ([self.instance] is [None] on a create), and
    alice's review count stays 1. *)
Theorem C2_second_review_attribute_error :
  List.length (filter (fun r => Nat.eqb (review_title r) 1
                                && Nat.eqb (review_author r) 1)
                      (reviews (ok_or (Review_save db0 (mkReview 1 1 1 "great" 8)) db0)))
  = 1%nat /\
  review_create (ok_or (Review_save db0 (mkReview 1 1 1 "great" 8)) db0)
    (Some alice) 1 (mkReviewData (Some "again") (Some 5)) = Err AttributeError.
Proof. split; reflexivity. Qed.

(** C3 (code_bug): update and delete of a review should be allowed exactly
    for its author, a moderator or an admin.  [ReviewViewSet.get_permissions]
    lists the class [IsAuthorOrModerPermission] rather than an instance, so
    every PATCH and DELETE of a review, by any actor, raises [TypeError] in
    [check_permissions], before the review is read. *)
Theorem C3_review_mutations_raise_type_error :
  forall db a tid rid d,
    review_partial_update db a tid rid d = Err TypeError /\
    review_destroy db a tid rid = Err TypeError.
Proof. intros; split; reflexivity. Qed.

(** C4 (code_bug): a score outside 1..10 should be rejected with a
    validation error.  [validate_score] is attached to no field: the score
    field takes the bounds 0..32767 of [PositiveSmallIntegerField], accepts
    11, a create with score 11 then fails with [AttributeError] (not a score
    error), and [Review.save] stores a review with score 11. *)
Theorem C4_score_eleven_not_rejected :
  validate_score 11 = Err (ValidationError "score") /\
  ReviewSerializer_fields false (mkReviewData (Some "meh") (Some 11))
    = Ok (mkReviewData (Some "meh") (Some 11)) /\
  review_create db0 (Some alice) 1 (mkReviewData (Some "meh") (Some 11))
    = Err AttributeError /\
  exists db', Review_save db0 (mkReview 1 1 1 "meh" 11) = Ok db' /\
              In (mkReview 1 1 1 "meh" 11) (reviews db').
Proof.
  split; [reflexivity|].
  split; [reflexivity|].
  split; [reflexivity|].
  eexists; split; [reflexivity|]; simpl; left; reflexivity.
Qed.

(** C5 (code_bug): with two reviews of "Dune" (8 and 7), raising bob's score
    from 7 to 8 should change the rating by (8 - 7) / 2 = 1/2; because of the
    truncation of C1 the stored rating goes from 7 to 8, a change of 1. *)
Theorem C5_score_update_changes_rating_by_one :
  rating_of db_two 1 = Some (Some 7) /\
  List.length (reviews_of db_two 1) = 2%nat /\
  (exists db', Review_save db_two (mkReview 2 1 2 "good" 8) = Ok db' /\
               List.length (reviews_of db' 1) = 2%nat /\
               rating_of db' 1 = Some (Some 8)) /\
  ~ (inject_Z (8 - 7) == (8 - 7) # 2)%Q.
Proof.
  split; [reflexivity|].
  split; [reflexivity|].
  split; [eexists; split; [reflexivity | split; reflexivity]|].
  unfold Qeq; simpl; discriminate.
Qed.

(** C6: deleting a title removes the title, every review of it and every
    comment on those reviews; no remaining comment references a removed
    review, and every remaining comment still references a remaining
    review. *)
Theorem C6_title_delete_cascades :
  forall db tid,
    comment_refs_ok db = true ->
    forallb (fun t => negb (Nat.eqb (title_id t) tid))
            (titles (delete_title db tid)) = true /\
    forallb (fun r => negb (Nat.eqb (review_title r) tid))
            (reviews (delete_title db tid)) = true /\
    forallb (fun c => negb (existsb (fun r => Nat.eqb (review_title r) tid
                                              && Nat.eqb (review_id r) (comment_review c))
                                    (reviews db)))
            (comments (delete_title db tid)) = true /\
    comment_refs_ok (delete_title db tid) = true.
Proof.
  intros db tid Hrefs.
  assert (Hdoomed : forall c r, In r (reviews db) -> review_title r = tid ->
            review_id r = comment_review c ->
            existsb (Nat.eqb (comment_review c))
                    (map review_id (reviews_of db tid)) = true).
  { intros c r Hr Ht Hid; apply existsb_exists; exists (review_id r); split.
    - apply in_map; apply filter_In; split; [exact Hr | apply Nat.eqb_eq; exact Ht].
    - rewrite Hid; apply Nat.eqb_refl. }
  split; [|split; [|split]].
  - apply forallb_forall; intros t Ht; apply filter_In in Ht as [_ Ht]; exact Ht.
  - apply forallb_forall; intros r Hr; apply filter_In in Hr as [_ Hr]; exact Hr.
  - apply forallb_forall; intros c Hc; simpl in Hc; apply filter_In in Hc as [_ Hc].
    destruct (existsb _ (reviews db)) eqn:E; [|reflexivity].
    apply existsb_exists in E as [r [Hr Hm]].
    apply andb_prop in Hm as [Ht Hid]; apply Nat.eqb_eq in Ht, Hid.
    rewrite (Hdoomed c r Hr Ht Hid) in Hc; discriminate.
  - unfold comment_refs_ok in *; apply forallb_forall; intros c Hc.
    simpl in Hc; apply filter_In in Hc as [Hc0 Hc].
    rewrite forallb_forall in Hrefs; specialize (Hrefs c Hc0).
    apply existsb_exists in Hrefs as [r [Hr Hid]]; apply Nat.eqb_eq in Hid.
    apply existsb_exists; exists r; split; [|apply Nat.eqb_eq; exact Hid].
    simpl; apply filter_In; split; [exact Hr|].
    destruct (Nat.eqb (review_title r) tid) eqn:Ht; [|reflexivity].
    apply Nat.eqb_eq in Ht; rewrite (Hdoomed c r Hr Ht Hid) in Hc; discriminate.
Qed.

Lemma C6_title_delete_cascades_witness :
  comment_refs_ok db_scenario_D = true /\
  forallb (fun t => negb (Nat.eqb (title_id t) 1))
          (titles (delete_title db_scenario_D 1)) = true /\
  forallb (fun r => negb (Nat.eqb (review_title r) 1))
          (reviews (delete_title db_scenario_D 1)) = true /\
  forallb (fun c => negb (existsb (fun r => Nat.eqb (review_title r) 1
                                            && Nat.eqb (review_id r) (comment_review c))
                                  (reviews db_scenario_D)))
          (comments (delete_title db_scenario_D 1)) = true /\
  comment_refs_ok (delete_title db_scenario_D 1) = true.
Proof.
  split; [reflexivity|].
  apply (C6_title_delete_cascades db_scenario_D 1); reflexivity.
Defined.

(** Scenario D: the three reviews of "Dune" and the five comments on them
    are removed; the review of "Solaris" and its comment stay. *)
Example scenario_D_delete_dune :
  reviews (delete_title db_scenario_D 1) = [mkReview 4 2 1 "d" 9] /\
  comments (delete_title db_scenario_D 1) = [mkComment 6 4 2 "c6"].
Proof. split; reflexivity. Qed.

(** C7 (code_bug): a title whose year exceeds the current year should be
    rejected.  [validate_year] is attached to no field; an admin's request
    with year 3000 (the current year being 2026) passes
    [TitleWriteSerializer] and the title is stored. *)
Theorem C7_future_year_stored :
  validate_year 2026 3000 = Err (ValidationError "year") /\
  exists db',
    title_create db0 (Some root_admin)
      (mkTitleData (Some "Future") (Some 3000) None None (Some "books")
                   (Some ["scifi"])) = Ok db' /\
    In (mkTitle 2 "Future" 3000 None None (Some "books") ["scifi"]) (titles db').
Proof.
  split; [reflexivity|].
  eexists; split; [reflexivity|]; simpl; right; left; reflexivity.
Qed.

Definition with_rating (d : TitleData) (q : option Q) : TitleData :=
  mkTitleData (td_name d) (td_year d) q (td_description d) (td_category d)
    (td_genres d).

(** C8: the [rating] a client sends with a title create or update is
    ignored: the outcome does not depend on it, a created title gets a
    [NULL] rating and no stored rating changes. *)
Theorem C8_title_writes_ignore_rating :
  forall db a tid d q,
    title_create db a (with_rating d q) = title_create db a d /\
    title_partial_update db a tid (with_rating d q) = title_partial_update db a tid d /\
    match title_create db a d with
    | Ok db' => map title_rating (titles db') = (map title_rating (titles db) ++ [None])%list
    | Err _ => True
    end /\
    match title_partial_update db a tid d with
    | Ok db' => map title_rating (titles db') = map title_rating (titles db)
    | Err _ => True
    end.
Proof.
  intros db a tid d q.
  split; [reflexivity|].
  split; [reflexivity|].
  split.
  - unfold title_create, bind.
    destruct (check_permissions _ _ _); [|exact I].
    destruct (TitleWriteSerializer_is_valid _ _ _); [|exact I].
    simpl; rewrite map_app; reflexivity.
  - unfold title_partial_update, bind.
    destruct (check_permissions _ _ _); [|exact I].
    destruct (TitleViewSet_get_object _ _ _ _); [|exact I].
    destruct (TitleWriteSerializer_is_valid _ _ _); [|exact I].
    simpl; rewrite map_map; apply map_ext; intros t.
    destruct (Nat.eqb _ _); reflexivity.
Qed.

(** The state after alice (10) and bob (2) reviewed "Dune" and alice's
    account was deleted: the cascade removed her review without
    recomputing the rating. *)
Definition db_stale : DB :=
  delete_user
    (ok_or (let* d := Review_save db0 (mkReview 1 1 1 "x" 10) in
            Review_save d (mkReview 2 1 2 "y" 2)) db0) 1.




(** C10: deleting a user removes every review and comment they wrote; the
    titles, ratings included, are left exactly as they were. *)
Theorem C10_user_delete_keeps_ratings :
  forall db uid,
    titles (delete_user db uid) = titles db /\
    (forall tid, rating_of (delete_user db uid) tid = rating_of db tid) /\
    forallb (fun r => negb (Nat.eqb (review_author r) uid))
            (reviews (delete_user db uid)) = true /\
    forallb (fun c => negb (Nat.eqb (comment_author c) uid))
            (comments (delete_user db uid)) = true.
Proof.
  intros db uid; split; [reflexivity|]; split; [reflexivity|]; split.
  - apply forallb_forall; intros r Hr; apply filter_In in Hr as [_ Hr]; exact Hr.
  - apply forallb_forall; intros c Hc; apply filter_In in Hc as [_ Hc].
    apply andb_prop in Hc as [Hc _]; exact Hc.
Qed.

(** In [db_stale] the stored rating of "Dune" is the mean 6 of the deleted
    and the surviving review, while a recomputation over the surviving
    review gives 2. *)
Example db_stale_rating :
  rating_of db_stale 1 = Some (Some 6) /\
  IntegerField_prep (Avg (scores_of db_stale 1)) = Some 2.
Proof. split; reflexivity. Qed.

(** ** Further properties of the rating code *)

Lemma rating_of_compute_rating_other db tid tid' :
  tid' <> tid -> rating_of (compute_rating db tid) tid' = rating_of db tid'.
Proof.
  intros Hne; unfold rating_of, find_title, compute_rating; simpl.
  rewrite find_map.
  rewrite (find_ext _ (fun t => Nat.eqb (title_id t) tid')).
  - destruct (find (fun t => Nat.eqb (title_id t) tid') (titles db)) as [t|] eqn:E;
      [|reflexivity].
    apply find_some in E as [_ E]; apply Nat.eqb_eq in E; simpl.
    destruct (Nat.eqb (title_id t) tid) eqn:E'; [|reflexivity].
    apply Nat.eqb_eq in E'; congruence.
  - intros t; destruct (Nat.eqb (title_id t) tid); reflexivity.
Qed.

(** [Review.save] and [Review.delete] recompute only the rating of the
    review's own title; the stored rating of every other title is left as
    it was. *)
Theorem review_write_other_titles_untouched :
  forall db r tid,
    tid <> review_title r ->
    rating_of (Review_delete db r) tid = rating_of db tid /\
    match Review_save db r with
    | Ok db' => rating_of db' tid = rating_of db tid
    | Err _ => True
    end.
Proof.
  intros db r tid Hne; split.
  - unfold Review_delete; rewrite rating_of_compute_rating_other by exact Hne.
    reflexivity.
  - unfold Review_save, guard, bind.
    destruct (review_row_ok db r); [|exact I].
    rewrite rating_of_compute_rating_other by exact Hne; reflexivity.
Qed.

Lemma review_write_other_titles_untouched_witness :
  (2 <> review_title (mkReview 1 1 1 "a" 3))%nat /\
  rating_of (Review_delete db_scenario_D (mkReview 1 1 1 "a" 3)) 2
    = rating_of db_scenario_D 2 /\
  match Review_save db_scenario_D (mkReview 1 1 1 "a" 3) with
  | Ok db' => rating_of db' 2 = rating_of db_scenario_D 2
  | Err _ => True
  end.
Proof.
  assert (H : (2 <> review_title (mkReview 1 1 1 "a" 3))%nat) by discriminate.
  split; [exact H|].
  exact (review_write_other_titles_untouched db_scenario_D (mkReview 1 1 1 "a" 3) 2 H).
Defined.

Lemma sum_bounds (l : list Z) lo hi :
  Forall (fun s => lo <= s <= hi) l ->
  lo * Z.of_nat (List.length l) <= fold_right Z.add 0 l <= hi * Z.of_nat (List.length l).
Proof.
  induction 1 as [|x l Hx _ IH]; cbn [List.length fold_right]; [lia|].
  rewrite Nat2Z.inj_succ; nia.
Qed.

Lemma Avg_eq (l : list Z) :
  l <> [] -> Avg l = Some (Qmake (fold_right Z.add 0 l) (Pos.of_nat (List.length l))).
Proof. destruct l; [contradiction | reflexivity]. Qed.

Lemma py_int_mean_bounds (l : list Z) lo hi :
  l <> [] -> 0 <= lo -> Forall (fun s => lo <= s <= hi) l ->
  lo <= py_int (Qmake (fold_right Z.add 0 l) (Pos.of_nat (List.length l))) <= hi.
Proof.
  intros Hne Hlo Hall.
  pose proof (sum_bounds _ _ _ Hall) as [Hl Hh].
  assert (Hn0 : List.length l <> 0%nat) by (destruct l; [contradiction | discriminate]).
  set (n := List.length l) in *.
  set (sum := fold_right Z.add 0 l) in *.
  assert (Hp : Z.pos (Pos.of_nat n) = Z.of_nat n).
  { rewrite <- positive_nat_Z, Nat2Pos.id; [reflexivity | exact Hn0]. }
  assert (Hn : 0 < Z.of_nat n) by lia.
  unfold py_int.
  replace (Qle_bool 0 (Qmake sum (Pos.of_nat n))) with true.
  - assert (Hf : Qfloor (Qmake sum (Pos.of_nat n)) = sum / Z.of_nat n)
      by (unfold Qfloor; rewrite <- Hp; reflexivity).
    rewrite Hf; split.
    + apply Z.div_le_lower_bound; [exact Hn | nia].
    + apply Z.div_le_upper_bound; [exact Hn | nia].
  - symmetry; apply Qle_bool_iff; unfold Qle; cbn [Qnum Qden inject_Z].
    rewrite Hp; nia.
Qed.

(** The value [compute_rating] writes lies between the smallest and the
    largest score of the title's reviews: with non-negative scores all in
    [lo..hi], the truncated mean is in [lo..hi] (so scores in 1..10 give a
    rating in 1..10). *)
Theorem compute_rating_bounds :
  forall db tid lo hi x,
    0 <= lo ->
    Forall (fun s => lo <= s <= hi) (scores_of db tid) ->
    rating_of (compute_rating db tid) tid = Some (Some x) ->
    lo <= x <= hi.
Proof.
  intros db tid lo hi x Hlo Hall.
  unfold rating_of; rewrite find_title_compute_rating.
  destruct (find_title db tid); [|discriminate].
  cbn [option_map set_title_rating title_rating].
  destruct (scores_of db tid) as [|s l] eqn:E; [discriminate|].
  rewrite (Avg_eq (s :: l)) by discriminate.
  unfold IntegerField_prep; cbn [option_map].
  intros H; injection H as <-.
  exact (py_int_mean_bounds (s :: l) lo hi ltac:(discriminate) Hlo Hall).
Qed.

Lemma compute_rating_bounds_witness :
  0 <= 7 /\ Forall (fun s => 7 <= s <= 8) (scores_of db_two 1) /\
  rating_of (compute_rating db_two 1) 1 = Some (Some 7) /\ 7 <= 7 <= 8.
Proof.
  assert (H1 : 0 <= 7) by lia.
  assert (H2 : Forall (fun s => 7 <= s <= 8) (scores_of db_two 1)).
  { vm_compute; repeat constructor; discriminate. }
  assert (H3 : rating_of (compute_rating db_two 1) 1 = Some (Some 7)) by reflexivity.
  split; [exact H1|]; split; [exact H2|]; split; [exact H3|].
  exact (compute_rating_bounds db_two 1 7 8 7 H1 H2 H3).
Defined.

(** [Review.delete] removes the review and exactly the comments on it, and
    leaves its title with the rating [compute_rating] writes over the
    remaining reviews ([NULL] when none remain). *)
Theorem Review_delete_effect :
  forall db r,
    find_title db (review_title r) <> None ->
    forallb (fun r' => negb (Nat.eqb (review_id r') (review_id r)))
            (reviews (Review_delete db r)) = true /\
    (forall c, In c (comments db) ->
       In c (comments (Review_delete db r)) <-> comment_review c <> review_id r) /\
    rating_consistent (Review_delete db r) (review_title r).
Proof.
  intros db r Hex; split; [|split].
  - apply forallb_forall; intros r' Hr; apply filter_In in Hr as [_ Hr]; exact Hr.
  - intros c Hc; simpl; rewrite filter_In; split.
    + intros [_ H] E; rewrite E, Nat.eqb_refl in H; discriminate.
    + intros Hne; split; [exact Hc|].
      apply negb_true_iff, Nat.eqb_neq; exact Hne.
  - apply compute_rating_consistent; exact Hex.
Qed.

Lemma Review_delete_effect_witness :
  find_title db_scenario_D 1 <> None /\
  forallb (fun r' => negb (Nat.eqb (review_id r') 1))
          (reviews (Review_delete db_scenario_D (mkReview 1 1 1 "a" 8))) = true /\
  (forall c, In c (comments db_scenario_D) ->
     In c (comments (Review_delete db_scenario_D (mkReview 1 1 1 "a" 8)))
     <-> comment_review c <> 1%nat) /\
  rating_consistent (Review_delete db_scenario_D (mkReview 1 1 1 "a" 8)) 1.
Proof.
  assert (H : find_title db_scenario_D (review_title (mkReview 1 1 1 "a" 8)) <> None)
    by discriminate.
  split; [exact H|].
  exact (Review_delete_effect db_scenario_D (mkReview 1 1 1 "a" 8) H).
Defined.

Definition db_alice_only : DB :=
  ok_or (Review_save db0 (mkReview 1 1 1 "great" 8)) db0.

Lemma Review_delete_last_witness :
  find_title db_alice_only 1 <> None /\
  (forall r', In r' (reviews db_alice_only) -> review_title r' = 1%nat ->
              review_id r' = 1%nat) /\
  rating_of db_alice_only 1 = Some (Some 8) /\
  rating_of (Review_delete db_alice_only (mkReview 1 1 1 "great" 8)) 1 = Some None.
Proof.
  assert (H1 : find_title db_alice_only 1 <> None) by discriminate.
  assert (H2 : forall r', In r' (reviews db_alice_only) -> review_title r' = 1%nat ->
                          review_id r' = 1%nat).
  { vm_compute; intros r' [<-|[]] _; reflexivity. }
  split; [exact H1|]; split; [exact H2|]; split; [reflexivity|].
  exact (Review_delete_last db_alice_only (mkReview 1 1 1 "great" 8) H1 H2).
Defined.

Lemma Review_save_pairs_unique_witness :
  pairs_unique (reviews db_alice_only) /\
  Review_save db_alice_only (mkReview 2 1 2 "good" 7) = Ok db_two /\
  pairs_unique (reviews db_two).
Proof.
  assert (H1 : pairs_unique (reviews db_alice_only)).
  { intros r1 r2 [<-|[]] [<-|[]] _ _; reflexivity. }
  assert (H2 : Review_save db_alice_only (mkReview 2 1 2 "good" 7) = Ok db_two)
    by reflexivity.
  split; [exact H1|]; split; [exact H2|].
  exact (Review_save_pairs_unique _ _ _ H1 H2).
Defined.

(** ** Comments: [CommentSerializer] and [CommentViewSet] *)

(** The writable field of [CommentSerializer] is [text] (a [CharField] with
    [trim_whitespace=True]: stripped, and refused when blank after stripping,
    [allow_blank=False]); [author], [pub_date] and [id] are read-only, and
    [review] is not a field. *)
Definition CommentSerializer_is_valid (partial : bool) (text : option string)
  : Result (option string) :=
  match text with
  | Some t => if String.eqb (py_strip t) "" then Err (ValidationError "text")
              else Ok (Some (py_strip t))
  | None => if partial then Ok None else Err (ValidationError "text")
  end.


(** [Model.save] of a new comment is an INSERT; its id [new_id] is the
    value the database's sequence for the table gives the row, and an id
    already in the table fails the primary key. *)
Definition comment_insert (db : DB) (c : Comment) : Result DB :=
  if existsb (fun x => Nat.eqb (comment_id x) (comment_id c)) (comments db)
  then Err IntegrityError
  else Ok (set_comments db (comments db ++ [c])%list).

(** [CommentViewSet.perform_create]: [get_object_or_404(Review,
    pk=review_id)], the authentication test, then
    [serializer.save(author=..., review=...)]. *)
Definition CommentViewSet_perform_create (db : DB) (new_id : nat) (a : Actor)
  (review_pk : nat) (text : option string) : Result DB :=
  match find_review db review_pk, a with
  | None, _ => Err NotFound
  | Some _, None => Err PermissionDenied
  | Some r, Some u =>
      comment_insert db (mkComment new_id (review_id r) (user_id u) (opt_default text ""))
  end.

(** POST [titles/<title_id>/reviews/<review_pk>/comments/]. *)
Definition comment_create (db : DB) (new_id : nat) (a : Actor) (title_id review_pk : nat)
  (text : option string) : Result DB :=
  let* _ := check_permissions (CommentViewSet_get_permissions act_create) POST a in
  let* t := CommentSerializer_is_valid false text in
  CommentViewSet_perform_create db new_id a review_pk t.











(** A comment can only be created by an authenticated user, on an existing
    review, with a text that is not blank after stripping: an anonymous
    request gets [NotAuthenticated], a missing or blank text a
    [ValidationError] on [text], and a missing review never succeeds. *)
Theorem comment_create_errors :
  forall db nid a tid rid text,
    (a = None -> comment_create db nid a tid rid text = Err NotAuthenticated) /\
    (forall u, a = Some u -> (text = None \/ exists t, text = Some t /\ py_strip t = "") ->
     comment_create db nid a tid rid text = Err (ValidationError "text")) /\
    (find_review db rid = None ->
     forall db', comment_create db nid a tid rid text <> Ok db').
Proof.
  intros db nid a tid rid text; split; [|split].
  - intros ->; reflexivity.
  - intros u -> Ht; destruct Ht as [-> | [t [-> Et]]]; [reflexivity|].
    unfold comment_create; cbn [CommentViewSet_get_permissions check_permissions
      IsAuthenticated has_permission is_authenticated bind].
    unfold CommentSerializer_is_valid; rewrite Et; reflexivity.
  - intros Hr db'; unfold comment_create, bind.
    destruct (check_permissions _ _ _); [|discriminate].
    destruct (CommentSerializer_is_valid _ _); [|discriminate].
    unfold CommentViewSet_perform_create; rewrite Hr; discriminate.
Qed.

(** ** Title writes are reserved to admins *)

(** A title create, update or delete by an actor without admin capability
    is refused before anything is read: [NotAuthenticated] for an anonymous
    request, [PermissionDenied] otherwise (moderators included). *)
Theorem title_writes_need_admin :
  forall db a tid d,
    is_admin_actor a = false ->
    title_create db a d = Err (permission_denied a) /\
    title_partial_update db a tid d = Err (permission_denied a) /\
    title_destroy db a tid = Err (permission_denied a).
Proof.
  intros db a tid d Ha.
  unfold title_create, title_partial_update, title_destroy, TitleViewSet_permissions.
  destruct a as [u|]; cbn in Ha |- *; [rewrite Ha|]; repeat split.
Qed.

Lemma title_writes_need_admin_witness :
  is_admin_actor (Some mod_carol) = false /\
  title_create db0 (Some mod_carol)
    (mkTitleData (Some "X") (Some 2000) None None (Some "books") (Some ["scifi"]))
    = Err PermissionDenied /\
  title_partial_update db0 (Some mod_carol) 1
    (mkTitleData (Some "X") (Some 2000) None None (Some "books") (Some ["scifi"]))
    = Err PermissionDenied /\
  title_destroy db0 (Some mod_carol) 1 = Err PermissionDenied.
Proof.
  assert (H : is_admin_actor (Some mod_carol) = false) by reflexivity.
  split; [exact H|].
  exact (title_writes_need_admin db0 (Some mod_carol) 1
           (mkTitleData (Some "X") (Some 2000) None None (Some "books") (Some ["scifi"])) H).
Defined.

(** ** [username_validator] ([reviews/validators.py])

    Strings are ASCII text here; on ASCII, Python's [str.lower] maps A-Z to
    a-z and the class [\w] of a [str] pattern is [A-Za-z0-9_]. *)

Definition ascii_lower (c : Ascii.ascii) : Ascii.ascii :=
  let n := Ascii.nat_of_ascii c in
  if (65 <=? n)%nat && (n <=? 90)%nat then Ascii.ascii_of_nat (n + 32) else c.

Definition py_lower (s : string) : string :=
  string_of_list_ascii (map ascii_lower (list_ascii_of_string s)).

Definition is_ascii_text (s : string) : bool :=
  forallb (fun c => Ascii.nat_of_ascii c <? 128)%nat (list_ascii_of_string s).

(** A character of the class [[\w.@+-]]. *)
Definition username_char (c : Ascii.ascii) : bool :=
  let n := Ascii.nat_of_ascii c in
  (((48 <=? n) && (n <=? 57)) || ((65 <=? n) && (n <=? 90))
   || ((97 <=? n) && (n <=? 122)) || (n =? 95)
   || (n =? 46) || (n =? 64) || (n =? 43) || (n =? 45))%nat.

(** [re.sub(r'^[\w.@+-]+\Z', '', value)]: the pattern can only match the
    whole string, which it then replaces by the empty string; otherwise the
    value is returned unchanged. *)
Definition forbidden_chars (value : string) : string :=
  if negb (String.eqb value "")
     && forallb username_char (list_ascii_of_string value)
  then "" else value.

Definition username_validator (value : string) : Result string :=
  if String.eqb (py_lower value) "me"
  then Err (ValidationError "username")
  else if negb (String.eqb (forbidden_chars value) "")
  then Err (ValidationError "username")
  else Ok value.

(** [username_validator] accepts a string exactly when it is not "me" in
    any letter case and it is empty or made only of letters, digits and
    [_ . @ + -]; every rejection is a [ValidationError].  In particular the
    empty string passes it. *)
Theorem username_validator_accepts :
  forall value,
    is_ascii_text value = true ->
    (username_validator value = Ok value <->
     py_lower value <> "me" /\
     (value = "" \/ forallb username_char (list_ascii_of_string value) = true)) /\
    (username_validator value <> Ok value ->
     username_validator value = Err (ValidationError "username")).
Proof.
  intros value _; unfold username_validator, forbidden_chars.
  destruct (String.eqb (py_lower value) "me") eqn:Eme.
  - apply String.eqb_eq in Eme; split; [split; [discriminate | intros [H _]; contradiction]|].
    intros _; reflexivity.
  - apply String.eqb_neq in Eme.
    destruct (String.eqb value "") eqn:Ee; cbn [negb andb].
    + apply String.eqb_eq in Ee; subst value; cbn.
      split; [split; [intros _; split; [exact Eme | left; reflexivity] | reflexivity]|].
      intros H; contradiction H; reflexivity.
    + apply String.eqb_neq in Ee.
      destruct (forallb username_char (list_ascii_of_string value)) eqn:Ef; cbn.
      * split; [split; [intros _; split; [exact Eme | right; reflexivity] | reflexivity]|].
        intros H; contradiction H; reflexivity.
      * replace (String.eqb value "") with false by (symmetry; apply String.eqb_neq; exact Ee).
        cbn; split; [split; [discriminate|] | reflexivity].
        intros [_ [H|H]]; [contradiction | discriminate].
Qed.

Lemma username_validator_accepts_witness :
  is_ascii_text "" = true /\ username_validator "" = Ok "".
Proof.
  assert (H : is_ascii_text "" = true) by reflexivity.
  split; [exact H|].
  apply (proj1 (username_validator_accepts "" H)).
  split; [discriminate | left; reflexivity].
Defined.

(** Case variants of "me" are all rejected. *)
Example username_validator_me_variants :
  username_validator "Me" = Err (ValidationError "username") /\
  username_validator "ME" = Err (ValidationError "username") /\
  username_validator "bob.smith@x" = Ok "bob.smith@x" /\
  username_validator "bob smith" = Err (ValidationError "username").
Proof. repeat split; reflexivity. Qed.

(** ** Accounts: [UserViewSet.me], [SignUpSerializer] and [signup]

    The user table with the columns these views read and write.  Django's
    [EmailValidator] is the section variable [email_valid]. *)

Section Accounts.

Variable email_valid : string -> bool.

Record Account := mkAccount {
  acc_id : nat;
  acc_username : string;
  acc_email : string;
  acc_first_name : string;
  acc_last_name : string;
  acc_bio : string;
  acc_role : Role;
  acc_is_active : bool
}.

(** DRF [CharField]: the value is stripped ([trim_whitespace]); a blank
    value is refused unless [allow_blank], and returned as [''] without the
    validators when allowed; then [max_length] and the field's validators. *)
Definition char_field (field : string) (allow_blank : bool) (max_length : option nat)
  (validators : string -> bool) (v : string) : Result string :=
  let t := py_strip v in
  if String.eqb t "" then
    (if allow_blank then Ok "" else Err (ValidationError field))
  else if match max_length with
          | Some m => (String.length t <=? m)%nat
          | None => true
          end && validators t
  then Ok t else Err (ValidationError field).

(** [RegexValidator(r'^[\w.@+-]+$')] on a stripped, non-blank value. *)
Definition username_regex (s : string) : bool :=
  forallb username_char (list_ascii_of_string s).

Definition unique_violation (accs : list Account) (a : Account) : bool :=
  existsb (fun x => negb (Nat.eqb (acc_id x) (acc_id a))
                    && (String.eqb (acc_username x) (acc_username a)
                        || String.eqb (acc_email x) (acc_email a))) accs.

Fixpoint upsert_account (a : Account) (accs : list Account) : list Account :=
  match accs with
  | [] => [a]
  | x :: accs' => if Nat.eqb (acc_id x) (acc_id a) then a :: accs'
                  else x :: upsert_account a accs'
  end.

(** [Model.save] of a user row: [username] and [email] are [unique] (and so
    is the pair, by [unique_username_email]). *)
Definition account_save (accs : list Account) (a : Account) : Result (list Account) :=
  if unique_violation accs a then Err IntegrityError else Ok (upsert_account a accs).

(** The body of a request to [users/me/]: [rb_json] tells a JSON body (a
    plain [dict]) from a form body (a [QueryDict]). *)
Record MeBody := mkMeBody {
  rb_json : bool;
  rb_username : option string;
  rb_email : option string;
  rb_first_name : option string;
  rb_last_name : option string;
  rb_bio : option string;
  rb_role : option string
}.

Definition parse_role (s : string) : option Role :=
  if String.eqb s "user" then Some USER
  else if String.eqb s "moderator" then Some MODERATOR
  else if String.eqb s "admin" then Some ADMIN
  else None.

Definition opt_field (v : option string) (f : string -> Result string)
  : Result (option string) :=
  match v with
  | None => Ok None
  | Some s => let* t := f s in Ok (Some t)
  end.

(** [NotAdminSerializer(request.user, data=..., partial=True)]: the fields
    of [UserSerializer]; [role] is declared on [UserSerializer], so the
    [read_only_fields] of [NotAdminSerializer] do not apply to it.
    [validate_username] refuses "me" in any case; its and [validate_email]'s
    uniqueness tests only run when [self.instance is None]. *)
Definition NotAdminSerializer_update (accs : list Account) (u : Account) (b : MeBody)
  : Result (list Account) :=
  let* un := opt_field (rb_username b) (fun s =>
               let* t := char_field "username" false (Some 150%nat) username_regex s in
               if String.eqb (py_lower t) "me" then Err (ValidationError "username")
               else Ok t) in
  let* em := opt_field (rb_email b) (char_field "email" false (Some 254%nat) email_valid) in
  let* fn := opt_field (rb_first_name b) (char_field "first_name" true (Some 50%nat) (fun _ => true)) in
  let* ln := opt_field (rb_last_name b) (char_field "last_name" true (Some 50%nat) (fun _ => true)) in
  let* bio := opt_field (rb_bio b) (char_field "bio" true None (fun _ => true)) in
  let* ro := match rb_role b with
             | None => Ok None
             | Some s => match parse_role s with
                         | Some r => Ok (Some r)
                         | None => Err (ValidationError "role")
                         end
             end in
  account_save accs
    (mkAccount (acc_id u) (opt_default un (acc_username u)) (opt_default em (acc_email u))
       (opt_default fn (acc_first_name u)) (opt_default ln (acc_last_name u))
       (opt_default bio (acc_bio u)) (opt_default ro (acc_role u)) (acc_is_active u)).

(** PATCH [users/me/] ([permission_classes=[IsAuthenticated]]): a [role] key
    is removed first, by [request.data._mutable = True] and [pop]; on a JSON
    body [request.data] is a [dict], and setting [_mutable] on it raises
    [AttributeError]. *)
Definition me_patch (accs : list Account) (actor : option Account) (b : MeBody)
  : Result (list Account) :=
  match actor with
  | None => Err NotAuthenticated
  | Some u =>
      let* b' := match rb_role b with
                 | None => Ok b
                 | Some _ => if rb_json b then Err AttributeError
                             else Ok (mkMeBody (rb_json b) (rb_username b) (rb_email b)
                                        (rb_first_name b) (rb_last_name b) (rb_bio b) None)
                 end in
      NotAdminSerializer_update accs u b'
  end.

Lemma upsert_account_roles a accs :
  (forall x, In x accs -> acc_id x = acc_id a -> acc_role x = acc_role a) ->
  map (fun x => (acc_id x, acc_role x)) (upsert_account a accs) =
  map (fun x => (acc_id x, acc_role x)) accs \/
  map (fun x => (acc_id x, acc_role x)) (upsert_account a accs) =
  (map (fun x => (acc_id x, acc_role x)) accs ++ [(acc_id a, acc_role a)])%list.
Proof.
  induction accs as [|x accs IH]; intros H; simpl; [right; reflexivity|].
  destruct (Nat.eqb (acc_id x) (acc_id a)) eqn:E.
  - left; apply Nat.eqb_eq in E; simpl.
    rewrite (H x (or_introl eq_refl) E), E; reflexivity.
  - destruct IH as [IH|IH]; [intros y Hy; apply H; right; exact Hy| |];
      simpl; rewrite IH; [left | right]; reflexivity.
Qed.

End Accounts.

Lemma In_upsert_account a accs x :
  In x (upsert_account a accs) -> x = a \/ In x accs.
Proof.
  induction accs as [|y accs IH]; simpl.
  - intros [<-|[]]; left; reflexivity.
  - destruct (Nat.eqb (acc_id y) (acc_id a)); simpl.
    + intros [<-|H]; [left; reflexivity | right; right; exact H].
    + intros [<-|H]; [right; left; reflexivity|].
      destruct (IH H) as [->|H']; [left; reflexivity | right; right; exact H'].
Qed.

Lemma NotAdminSerializer_update_row ev accs u b accs' :
  NotAdminSerializer_update ev accs u b = Ok accs' ->
  exists a, account_save accs a = Ok accs' /\ acc_id a = acc_id u /\
            (rb_role b = None -> acc_role a = acc_role u).
Proof.
  unfold NotAdminSerializer_update, bind.
  destruct (opt_field (rb_username b) _); [|discriminate].
  destruct (opt_field (rb_email b) _); [|discriminate].
  destruct (opt_field (rb_first_name b) _); [|discriminate].
  destruct (opt_field (rb_last_name b) _); [|discriminate].
  destruct (opt_field (rb_bio b) _); [|discriminate].
  destruct (rb_role b) as [s|] eqn:Er.
  - destruct (parse_role s); [|discriminate].
    intros H; eexists; split; [exact H|]; split; [reflexivity | discriminate].
  - intros H; eexists; split; [exact H|]; split; reflexivity.
Qed.

(** PATCH [users/me/] never changes a role: every row after a successful
    request has the id and the role of a row before it (the [role] key of a
    form body is dropped, a JSON body with it fails). *)
Theorem me_patch_keeps_roles :
  forall ev accs u b accs',
    In u accs ->
    me_patch ev accs (Some u) b = Ok accs' ->
    forall x', In x' accs' ->
      exists x, In x accs /\ acc_id x = acc_id x' /\ acc_role x = acc_role x'.
Proof.
  intros ev accs u b accs' Hu H.
  assert (Hrow : exists a, account_save accs a = Ok accs' /\ acc_id a = acc_id u /\
                           acc_role a = acc_role u).
  { unfold me_patch, bind in H.
    destruct (rb_role b) as [s|] eqn:Er.
    - destruct (rb_json b); [discriminate|].
      destruct (NotAdminSerializer_update_row _ _ _ _ _ H) as [a [Hs [Hi Hr]]].
      exists a; split; [exact Hs|]; split; [exact Hi | apply Hr; reflexivity].
    - destruct (NotAdminSerializer_update_row _ _ _ _ _ H) as [a [Hs [Hi Hr]]].
      exists a; split; [exact Hs|]; split; [exact Hi | apply Hr; exact Er]. }
  destruct Hrow as [a [Hs [Hi Hr]]].
  unfold account_save in Hs; destruct (unique_violation accs a); [discriminate|].
  injection Hs as <-; intros x' Hx'.
  destruct (In_upsert_account _ _ _ Hx') as [->|Hin].
  - exists u; split; [exact Hu|]; split; [symmetry; exact Hi | symmetry; exact Hr].
  - exists x'; split; [exact Hin|]; split; reflexivity.
Qed.

Definition acc_alice : Account := mkAccount 1 "alice" "alice@x.org" "" "" "" USER true.
Definition acc_bob : Account := mkAccount 2 "bob" "bob@x.org" "" "" "" USER true.

Definition nonempty_email (s : string) : bool := negb (String.eqb s "").

Lemma me_patch_keeps_roles_witness :
  In acc_alice [acc_alice; acc_bob] /\
  me_patch nonempty_email [acc_alice; acc_bob] (Some acc_alice)
    (mkMeBody false None None None None (Some "hi") (Some "admin"))
    = Ok [mkAccount 1 "alice" "alice@x.org" "" "" "hi" USER true; acc_bob] /\
  (forall x', In x' [mkAccount 1 "alice" "alice@x.org" "" "" "hi" USER true; acc_bob] ->
     exists x, In x [acc_alice; acc_bob] /\ acc_id x = acc_id x' /\ acc_role x = acc_role x').
Proof.
  assert (H1 : In acc_alice [acc_alice; acc_bob]) by (left; reflexivity).
  assert (H2 : me_patch nonempty_email [acc_alice; acc_bob] (Some acc_alice)
                 (mkMeBody false None None None None (Some "hi") (Some "admin"))
               = Ok [mkAccount 1 "alice" "alice@x.org" "" "" "hi" USER true; acc_bob])
    by reflexivity.
  split; [exact H1|]; split; [exact H2|].
  exact (me_patch_keeps_roles _ _ _ _ _ H1 H2).
Defined.

(** Renaming oneself through PATCH [users/me/] to the username of another
    user (whose email differs from one's own) is not refused by the serializer (its uniqueness test is skipped on
    an update); the write then fails with the database's [IntegrityError]. *)
Theorem me_patch_taken_username_integrity_error :
  forall ev accs u x n,
    In x accs -> acc_id x <> acc_id u -> acc_email x <> acc_email u ->
    char_field "username" false (Some 150%nat) username_regex n = Ok (acc_username x) ->
    py_lower (acc_username x) <> "me" ->
    me_patch ev accs (Some u) (mkMeBody true (Some n) None None None None None)
      = Err IntegrityError.
Proof.
  intros ev accs u x n Hx Hne _ Hc Hme.
  unfold me_patch, NotAdminSerializer_update; cbn [rb_role rb_username rb_email
    rb_first_name rb_last_name rb_bio bind opt_field].
  rewrite Hc; cbn [bind].
  destruct (String.eqb (py_lower (acc_username x)) "me") eqn:E;
    [apply String.eqb_eq in E; contradiction|].
  cbn; unfold account_save.
  replace (unique_violation accs _) with true; [reflexivity|].
  symmetry; apply existsb_exists; exists x; split; [exact Hx|]; cbn.
  rewrite String.eqb_refl, orb_true_l, andb_true_r.
  apply negb_true_iff, Nat.eqb_neq; exact Hne.
Qed.

Lemma me_patch_taken_username_integrity_error_witness :
  In acc_bob [acc_alice; acc_bob] /\ acc_id acc_bob <> acc_id acc_alice /\
  acc_email acc_bob <> acc_email acc_alice /\
  char_field "username" false (Some 150%nat) username_regex " bob " = Ok (acc_username acc_bob) /\
  py_lower (acc_username acc_bob) <> "me" /\
  me_patch nonempty_email [acc_alice; acc_bob] (Some acc_alice)
    (mkMeBody true (Some " bob ") None None None None None) = Err IntegrityError.
Proof.
  assert (H1 : In acc_bob [acc_alice; acc_bob]) by (right; left; reflexivity).
  assert (H2 : acc_id acc_bob <> acc_id acc_alice) by discriminate.
  assert (H2' : acc_email acc_bob <> acc_email acc_alice) by discriminate.
  assert (H3 : char_field "username" false (Some 150%nat) username_regex " bob "
               = Ok (acc_username acc_bob)) by reflexivity.
  assert (H4 : py_lower (acc_username acc_bob) <> "me") by discriminate.
  split; [exact H1|]; split; [exact H2|]; split; [exact H2'|]; split; [exact H3|];
  split; [exact H4|].
  exact (me_patch_taken_username_integrity_error nonempty_email _ acc_alice acc_bob
           " bob " H1 H2 H2' H3 H4).
Defined.

(** ** Sign-up ([SignUpSerializer] and the [signup] view) *)

Section Signup.

Variable email_valid : string -> bool.

Definition username_passes (s : string) : bool :=
  match username_validator s with Ok _ => true | Err _ => false end.

(** [Model.save] of a new user row is an INSERT: the id is the next value
    [new_id] of the table's sequence, and the primary key and the [unique]
    columns [username] and [email] are checked. *)
Definition account_insert (accs : list Account) (a : Account) : Result (list Account) :=
  if existsb (fun x => Nat.eqb (acc_id x) (acc_id a)) accs || unique_violation accs a
  then Err IntegrityError else Ok (accs ++ [a])%list.

(** [User.objects.get_or_create(username=..., email=...)]: a row with both
    values is returned as it is; otherwise a row with the model's defaults
    ([role] [USER], [is_active] [True], blank names and bio) is inserted,
    and an [IntegrityError] of the insert is raised again when the second
    lookup finds nothing either. *)
Definition get_or_create_account (accs : list Account) (new_id : nat) (un em : string)
  : Result (list Account * Account) :=
  match find (fun x => String.eqb (acc_username x) un && String.eqb (acc_email x) em) accs with
  | Some x => Ok (accs, x)
  | None =>
      let a := mkAccount new_id un em "" "" "" USER true in
      let* accs' := account_insert accs a in Ok (accs', a)
  end.

(** [SignUpSerializer.is_valid]: the two fields, then [validate], which
    already runs [get_or_create] and turns its [IntegrityError] into a
    [ValidationError]. *)
Definition SignUpSerializer_is_valid (accs : list Account) (new_id : nat) (un em : string)
  : Result (list Account * (string * string)) :=
  let* u := char_field "username" false (Some 150%nat) username_passes un in
  let* e := char_field "email" false (Some 254%nat) email_valid em in
  match get_or_create_account accs new_id u e with
  | Ok (accs', _) => Ok (accs', (u, e))
  | Err IntegrityError => Err (ValidationError "non_field_errors")
  | Err err => Err err
  end.

(** The [signup] view: validation, a second [get_or_create] (its
    [IntegrityError] becomes a 400 response), then [send_code(user)], which
    mails the code to [user.email]; the result is the table and the address
    mailed to.  [new_id] is the id the sequence gives a row inserted by the
    request; the second [get_or_create] finds the row the first one returned
    ([get_or_create_account_again]), so at most one row is inserted. *)
Definition signup (accs : list Account) (new_id : nat) (un em : string)
  : Result (list Account * string) :=
  let* v := SignUpSerializer_is_valid accs new_id un em in
  let '(accs1, (u, e)) := v in
  match get_or_create_account accs1 new_id u e with
  | Ok (accs2, user) => Ok (accs2, acc_email user)
  | Err IntegrityError => Err (ValidationError "error")
  | Err err => Err err
  end.

End Signup.

Lemma find_app_none {A} (f : A -> bool) l a :
  find f l = None -> f a = true -> find f (l ++ [a])%list = Some a.
Proof.
  induction l as [|y l IH]; simpl; [intros _ ->; reflexivity|].
  destruct (f y); [discriminate|exact IH].
Qed.

Lemma existsb_false_In {A} (f : A -> bool) l x :
  existsb f l = false -> In x l -> f x = false.
Proof.
  intros H Hx; apply not_true_iff_false; intros Hf.
  rewrite (proj2 (existsb_exists f l) (ex_intro _ x (conj Hx Hf))) in H; discriminate.
Qed.

(** The outcome of [get_or_create] on users: the pair's row is returned,
    and the table is either unchanged or gets one new row at the end, with
    the sequence's id, an id not yet in the table, and the model's
    defaults. *)
Lemma get_or_create_account_spec accs nid un em accs' x :
  get_or_create_account accs nid un em = Ok (accs', x) ->
  acc_username x = un /\ acc_email x = em /\
  ((accs' = accs /\ In x accs) \/
   (accs' = (accs ++ [x])%list /\
    x = mkAccount nid un em "" "" "" USER true /\
    (forall y, In y accs -> acc_id y <> nid) /\
    find (fun y => String.eqb (acc_username y) un && String.eqb (acc_email y) em) accs = None)).
Proof.
  unfold get_or_create_account.
  destruct (find _ accs) as [y|] eqn:F.
  - intros H; injection H as <- <-.
    destruct (find_some _ _ F) as [Hin Hf].
    apply andb_true_iff in Hf; destruct Hf as [H1 H2].
    apply String.eqb_eq in H1, H2.
    split; [exact H1|]; split; [exact H2|]; left; split; [reflexivity|exact Hin].
  - unfold bind, account_insert.
    destruct (existsb _ accs || unique_violation _ _) eqn:E; [discriminate|].
    apply orb_false_iff in E; destruct E as [E _].
    intros H; injection H as <- <-.
    split; [reflexivity|]; split; [reflexivity|]; right.
    split; [reflexivity|]; split; [reflexivity|]; split; [|reflexivity].
    intros y Hy Eid; pose proof (existsb_false_In _ _ _ E Hy) as Hf; cbn in Hf.
    rewrite Eid, Nat.eqb_refl in Hf; discriminate.
Qed.

Lemma get_or_create_account_again accs nid nid' un em accs' x :
  get_or_create_account accs nid un em = Ok (accs', x) ->
  get_or_create_account accs' nid' un em = Ok (accs', x).
Proof.
  intros H.
  destruct (get_or_create_account_spec _ _ _ _ _ _ H)
    as [Hu [He [[-> Hin]|[-> [Hx [_ F]]]]]].
  - unfold get_or_create_account in H |- *.
    destruct (find (fun y => String.eqb (acc_username y) un && String.eqb (acc_email y) em)
                   accs) as [y|]; [exact H|].
    unfold bind, account_insert in H.
    destruct (_ || _); [discriminate|].
    injection H as E _; apply (f_equal (@List.length Account)) in E.
    rewrite length_app in E; simpl in E; lia.
  - unfold get_or_create_account.
    rewrite (find_app_none _ _ _ F); [reflexivity|].
    rewrite Hu, He, !String.eqb_refl; reflexivity.
Qed.

Lemma char_field_strip field ab ml vs v t :
  char_field field ab ml vs v = Ok t -> t = py_strip v.
Proof.
  unfold char_field.
  destruct (String.eqb (py_strip v) "") eqn:E.
  - apply String.eqb_eq in E; rewrite E.
    destruct ab; [intros H; injection H as <-; reflexivity | discriminate].
  - destruct (_ && _); [intros H; injection H as <-; reflexivity | discriminate].
Qed.

Ltac signup_fields H :=
  unfold signup, SignUpSerializer_is_valid, bind in H;
  destruct (char_field "username" _ _ _ _) as [u|] eqn:Hu in H; [|discriminate];
  destruct (char_field "email" _ _ _ _) as [e|] eqn:He in H; [|discriminate].

(** A repeated sign-up with the same username and email succeeds again,
    leaves the table as the first one left it and mails the code to the
    same address, whatever id the sequence would give a new row. *)
Theorem signup_idempotent :
  forall ev accs nid nid' un em accs' m,
    signup ev accs nid un em = Ok (accs', m) ->
    signup ev accs' nid' un em = Ok (accs', m).
Proof.
  intros ev accs nid nid' un em accs' m H.
  signup_fields H.
  destruct (get_or_create_account accs nid u e) as [[accs1 x1]|err] eqn:G1;
    [|destruct err; discriminate].
  rewrite (get_or_create_account_again _ _ nid _ _ _ _ G1) in H.
  injection H as <- <-.
  unfold signup, SignUpSerializer_is_valid, bind; rewrite Hu, He.
  rewrite (get_or_create_account_again _ _ nid' _ _ _ _ G1).
  rewrite (get_or_create_account_again _ _ nid' _ _ _ _ G1); reflexivity.
Qed.

(** A successful sign-up leaves a row with the stripped username and email
    and mails the code to that email; the table is unchanged, or it gets one
    new row at the end with the sequence's id (not yet in the table), role
    [USER] and [is_active]. *)
Theorem signup_outcome :
  forall ev accs nid un em accs' m,
    signup ev accs nid un em = Ok (accs', m) ->
    m = py_strip em /\
    (exists x, In x accs' /\ acc_username x = py_strip un /\ acc_email x = py_strip em) /\
    (accs' = accs \/
     (accs' = (accs ++ [mkAccount nid (py_strip un) (py_strip em) "" "" "" USER true])%list /\
      forall y, In y accs -> acc_id y <> nid)).
Proof.
  intros ev accs nid un em accs' m H.
  signup_fields H.
  apply char_field_strip in Hu, He; subst u e.
  destruct (get_or_create_account accs nid _ _) as [[accs1 x1]|err] eqn:G1;
    [|destruct err; discriminate].
  rewrite (get_or_create_account_again _ _ nid _ _ _ _ G1) in H.
  injection H as <- <-.
  destruct (get_or_create_account_spec _ _ _ _ _ _ G1)
    as [Hx1 [Hx2 [[-> Hin]|[-> [-> [Hfresh _]]]]]].
  - split; [exact Hx2|]; split; [exists x1; split; [exact Hin|]; split; assumption|].
    left; reflexivity.
  - split; [reflexivity|]; split.
    + eexists; split; [apply in_or_app; right; left; reflexivity|]; split; reflexivity.
    + right; split; [reflexivity | exact Hfresh].
Qed.

Definition acc_carol : Account := mkAccount 3 "carol" "carol@x.org" "" "" "" MODERATOR true.

Lemma signup_idempotent_witness :
  signup nonempty_email [acc_alice; acc_carol] 7 " dave " "dave@x.org"
    = Ok ([acc_alice; acc_carol; mkAccount 7 "dave" "dave@x.org" "" "" "" USER true]%list,
          "dave@x.org") /\
  signup nonempty_email [acc_alice; acc_carol; mkAccount 7 "dave" "dave@x.org" "" "" "" USER true]%list
    8 " dave " "dave@x.org"
    = Ok ([acc_alice; acc_carol; mkAccount 7 "dave" "dave@x.org" "" "" "" USER true]%list,
          "dave@x.org").
Proof.
  assert (H : signup nonempty_email [acc_alice; acc_carol] 7 " dave " "dave@x.org"
    = Ok ([acc_alice; acc_carol; mkAccount 7 "dave" "dave@x.org" "" "" "" USER true]%list,
          "dave@x.org")) by reflexivity.
  split; [exact H|]; exact (signup_idempotent _ _ _ 8 _ _ _ _ H).
Defined.

Lemma signup_outcome_witness :
  signup nonempty_email [acc_alice; acc_carol] 7 " dave " "dave@x.org"
    = Ok ([acc_alice; acc_carol; mkAccount 7 "dave" "dave@x.org" "" "" "" USER true]%list,
          "dave@x.org") /\
  "dave@x.org" = py_strip "dave@x.org" /\
  (exists x, In x [acc_alice; acc_carol; mkAccount 7 "dave" "dave@x.org" "" "" "" USER true] /\
             acc_username x = py_strip " dave " /\ acc_email x = py_strip "dave@x.org") /\
  ([acc_alice; acc_carol; mkAccount 7 "dave" "dave@x.org" "" "" "" USER true]
     = [acc_alice; acc_carol] \/
   ([acc_alice; acc_carol; mkAccount 7 "dave" "dave@x.org" "" "" "" USER true] =
      ([acc_alice; acc_carol] ++
       [mkAccount 7 (py_strip " dave ") (py_strip "dave@x.org") "" "" "" USER true])%list /\
    forall y, In y [acc_alice; acc_carol] -> acc_id y <> 7%nat)).
Proof.
  assert (H : signup nonempty_email [acc_alice; acc_carol] 7 " dave " "dave@x.org"
    = Ok ([acc_alice; acc_carol; mkAccount 7 "dave" "dave@x.org" "" "" "" USER true]%list,
          "dave@x.org")) by reflexivity.
  split; [exact H|]; exact (signup_outcome _ _ _ _ _ _ _ H).
Defined.

Lemma unique_violation_fresh accs a :
  (forall x, In x accs -> acc_id x <> acc_id a) ->
  unique_violation accs a =
  existsb (fun x => String.eqb (acc_username x) (acc_username a)
                    || String.eqb (acc_email x) (acc_email a)) accs.
Proof.
  unfold unique_violation; induction accs as [|y accs IH]; simpl; [reflexivity|]; intros H.
  replace (Nat.eqb (acc_id y) (acc_id a)) with false
    by (symmetry; apply Nat.eqb_neq, H; left; reflexivity).
  rewrite IH; [reflexivity|]; intros x Hx; apply H; right; exact Hx.
Qed.

Lemma id_clash_fresh accs nid :
  (forall x, In x accs -> acc_id x <> nid) ->
  existsb (fun x => Nat.eqb (acc_id x) nid) accs = false.
Proof.
  intros H; apply not_true_iff_false; intros Hex.
  apply existsb_exists in Hex as [x [Hx E]]; apply Nat.eqb_eq in E; exact (H x Hx E).
Qed.

(** Sign-up with a pair (username, email) that has no row, when the
    sequence gives an id not in the table: if another row already has that
    username or that email, the request fails with the [ValidationError] of
    [validate] and the table is not written; otherwise the new row is added
    at the end with role [USER] and the code goes to that email. *)
Theorem signup_new_pair :
  forall ev accs nid un em u e,
    char_field "username" false (Some 150%nat) username_passes un = Ok u ->
    char_field "email" false (Some 254%nat) ev em = Ok e ->
    (forall y, In y accs -> ~ (acc_username y = u /\ acc_email y = e)) ->
    (forall y, In y accs -> acc_id y <> nid) ->
    (existsb (fun y => String.eqb (acc_username y) u || String.eqb (acc_email y) e) accs = true ->
     signup ev accs nid un em = Err (ValidationError "non_field_errors")) /\
    (existsb (fun y => String.eqb (acc_username y) u || String.eqb (acc_email y) e) accs = false ->
     signup ev accs nid un em =
       Ok ((accs ++ [mkAccount nid u e "" "" "" USER true])%list, e)).
Proof.
  intros ev accs nid un em u e Hu He Hnone Hfresh.
  assert (F : find (fun x => String.eqb (acc_username x) u && String.eqb (acc_email x) e) accs
              = None).
  { destruct (find _ accs) as [y|] eqn:F; [|reflexivity].
    destruct (find_some _ _ F) as [Hin Hf].
    apply andb_true_iff in Hf; destruct Hf as [H1 H2]; apply String.eqb_eq in H1, H2.
    exfalso; exact (Hnone y Hin (conj H1 H2)). }
  assert (G : get_or_create_account accs nid u e =
              if existsb (fun y => String.eqb (acc_username y) u
                                   || String.eqb (acc_email y) e) accs
              then Err IntegrityError
              else Ok ((accs ++ [mkAccount nid u e "" "" "" USER true])%list,
                       mkAccount nid u e "" "" "" USER true)).
  { unfold get_or_create_account; rewrite F; unfold bind, account_insert.
    rewrite unique_violation_fresh by exact Hfresh; cbn [acc_username acc_email acc_id].
    rewrite (id_clash_fresh _ _ Hfresh), orb_false_l.
    destruct (existsb _ accs); reflexivity. }
  split; intros Hx; rewrite Hx in G;
    unfold signup, SignUpSerializer_is_valid, bind; rewrite Hu, He, G; [reflexivity|].
  rewrite (get_or_create_account_again _ _ nid _ _ _ _ G); reflexivity.
Qed.

Lemma signup_new_pair_witness :
  char_field "username" false (Some 150%nat) username_passes "alice" = Ok "alice" /\
  char_field "email" false (Some 254%nat) nonempty_email "a2@x.org" = Ok "a2@x.org" /\
  (forall y, In y [acc_alice; acc_carol] ->
     ~ (acc_username y = "alice" /\ acc_email y = "a2@x.org")) /\
  (forall y, In y [acc_alice; acc_carol] -> acc_id y <> 7%nat) /\
  (existsb (fun y => String.eqb (acc_username y) "alice" || String.eqb (acc_email y) "a2@x.org")
     [acc_alice; acc_carol] = true ->
   signup nonempty_email [acc_alice; acc_carol] 7 "alice" "a2@x.org"
     = Err (ValidationError "non_field_errors")) /\
  (existsb (fun y => String.eqb (acc_username y) "alice" || String.eqb (acc_email y) "a2@x.org")
     [acc_alice; acc_carol] = false ->
   signup nonempty_email [acc_alice; acc_carol] 7 "alice" "a2@x.org" =
     Ok (([acc_alice; acc_carol] ++
          [mkAccount 7 "alice" "a2@x.org" "" "" "" USER true])%list, "a2@x.org")).
Proof.
  assert (H1 : char_field "username" false (Some 150%nat) username_passes "alice" = Ok "alice")
    by reflexivity.
  assert (H2 : char_field "email" false (Some 254%nat) nonempty_email "a2@x.org" = Ok "a2@x.org")
    by reflexivity.
  assert (H3 : forall y, In y [acc_alice; acc_carol] ->
     ~ (acc_username y = "alice" /\ acc_email y = "a2@x.org")).
  { intros y [<-|[<-|[]]]; simpl; intros [_ E]; discriminate E. }
  assert (H4 : forall y, In y [acc_alice; acc_carol] -> acc_id y <> 7%nat).
  { intros y [<-|[<-|[]]]; discriminate. }
  split; [exact H1|]; split; [exact H2|]; split; [exact H3|]; split; [exact H4|].
  exact (signup_new_pair nonempty_email _ _ _ _ _ _ H1 H2 H3 H4).
Defined.
